(** * Streaming Tuning notebook: diagnostic helpers

    A shallow embedding of the utility cell of
    [class examples/Spark Streaming/Streaming Tuning.ipynb]
    (functions [show_query_progress], [diagnose_performance],
    [list_active_queries], [stop_all_queries], [simulate_delta_commits],
    [check_partitions_and_cores_static] and [plot_task_durations]).

    Conventions of the model:
    - Python integers are [Z]; Python floats are exact rationals [Q]
      (rounding, NaN and infinities are not represented);
    - a progress snapshot is a JSON-like [value];
    - every effect of the notebook (a [print], a Delta append, a
      [time.sleep], a [q.stop()], a read of the partition count or of the
      default parallelism, a call into [matplotlib.pyplot]) is an [event]
      appended to the trace of the [world];
    - Python exceptions are explicit: a computation yields [Ok a] or
      [Raise e], and the state reached when the exception was raised is
      kept, as in Python. *)

From Stdlib Require Import ZArith QArith List String Ascii Bool Lia Lqa.
Import ListNotations.

Set Warnings "-register-all".

Local Open Scope string_scope.
Local Open Scope Z_scope.

(** ** Python values and exceptions *)

(** JSON-like Python values, as [json.loads] builds them: the telemetry the
    engine reports for a micro-batch. Dictionaries are association lists
    in insertion order. *)
Inductive value : Type :=
| VNone
| VBool (b : bool)
| VInt (z : Z)
| VFloat (q : Q)
| VStr (s : string)
| VList (l : list value)
| VDict (d : list (string * value)).

(** The exceptions that the modelled builtins and libraries raise. *)
Inductive exn : Type :=
| KeyError (key : string)
| TypeError (msg : string)
| ValueError (msg : string)
| AnalysisException (msg : string).

(** Result of a computation that may raise. *)
Inductive outcome (A : Type) : Type :=
| Ok (a : A)
| Raise (e : exn).
Arguments Ok {A} a.
Arguments Raise {A} e.

Definition is_ok {A : Type} (o : outcome A) : bool :=
  match o with Ok _ => true | Raise _ => false end.

(** Python truthiness ([not x] is [negb (py_truthy x)]). *)
Definition py_truthy (v : value) : bool :=
  match v with
  | VNone => false
  | VBool b => b
  | VInt z => negb (z =? 0)
  | VFloat q => negb (Qeq_bool q 0)
  | VStr s => negb (String.eqb s "")
  | VList l => match l with [] => false | _ :: _ => true end
  | VDict d => match d with [] => false | _ :: _ => true end
  end.

Fixpoint dict_get (d : list (string * value)) (k : string) : option value :=
  match d with
  | [] => None
  | (k', v) :: d' => if String.eqb k' k then Some v else dict_get d' k
  end.

(** [v[k]] for a string key [k]: only a dictionary holding [k] answers. *)
Definition py_getitem (v : value) (k : string) : outcome value :=
  match v with
  | VDict d =>
      match dict_get d k with
      | Some x => Ok x
      | None => Raise (KeyError k)
      end
  | VStr _ => Raise (TypeError "string indices must be integers")
  | VList _ => Raise (TypeError "list indices must be integers or slices")
  | _ => Raise (TypeError "object is not subscriptable")
  end.

(** *** [int(x)] *)

Definition is_space (c : ascii) : bool :=
  let n := nat_of_ascii c in
  ((9 <=? n) && (n <=? 13) || (28 <=? n) && (n <=? 32))%nat.

Definition digit_of (c : ascii) : option Z :=
  let n := nat_of_ascii c in
  if ((48 <=? n) && (n <=? 57))%nat then Some (Z.of_nat n - 48) else None.

Fixpoint lstrip (l : list ascii) : list ascii :=
  match l with
  | c :: l' => if is_space c then lstrip l' else l
  | [] => []
  end.

Definition strip (l : list ascii) : list ascii :=
  rev (lstrip (rev (lstrip l))).

(** Decimal digits, a single underscore allowed between two digits. *)
Fixpoint parse_digits (acc : Z) (after_digit : bool) (l : list ascii)
  : option Z :=
  match l with
  | [] => if after_digit then Some acc else None
  | c :: l' =>
      match digit_of c with
      | Some d => parse_digits (10 * acc + d) true l'
      | None =>
          if Ascii.eqb c "_"%char && after_digit
          then parse_digits acc false l'
          else None
      end
  end.

Definition parse_int (s : string) : option Z :=
  match strip (list_ascii_of_string s) with
  | c :: l =>
      if Ascii.eqb c "-"%char then option_map Z.opp (parse_digits 0 false l)
      else if Ascii.eqb c "+"%char then parse_digits 0 false l
      else parse_digits 0 false (c :: l)
  | [] => None
  end.

(** [int(v)]: integers and booleans as they are, floats truncated towards
    zero, strings parsed as decimal literals, anything else a [TypeError]. *)
Definition py_int (v : value) : outcome Z :=
  match v with
  | VInt z => Ok z
  | VBool b => Ok (if b then 1 else 0)
  | VFloat q => Ok (Z.quot (Qnum q) (Zpos (Qden q)))
  | VStr s =>
      match parse_int s with
      | Some z => Ok z
      | None => Raise (ValueError "invalid literal for int() with base 10")
      end
  | _ => Raise (TypeError "int() argument must be a string or a number")
  end.

(** ** The engine's objects *)

(** [q.status]: the engine always reports these three fields. *)
Record query_status : Type := mkStatus {
  message : string;
  isDataAvailable : bool;
  isTriggerActive : bool
}.

(** A streaming query handle. [name] is [None] for an unnamed query;
    [lastProgress] is [VNone] until a batch has completed;
    [recentProgress] is the engine-bounded history, a [VList] of
    snapshots. *)
Record query : Type := mkQuery {
  id : string;
  name : option string;
  status : query_status;
  lastProgress : value;
  recentProgress : value
}.

(** A DataFrame reference, as far as the notebook looks at it. *)
Record dataframe : Type := mkDataFrame {
  isStreaming : bool;
  numPartitions : Z
}.

(** A row written by [simulate_delta_commits]: the [id] column of
    [spark.range] and the [ts] column of [current_timestamp()]. *)
Record row : Type := mkRow {
  row_id : Z;
  row_ts : Q
}.

(** ** Output and effects *)

(** The pieces of a printed line: literal text and the interpolated fields
    of an f-string, kept unrendered. *)
Inductive piece : Type :=
| Lit (s : string)
| Nl
| FmtZ (z : Z)
| FmtQ (q : Q)
| FmtQ2f (q : Q)
| FmtS (s : string)
| FmtOpt (o : option string)
| FmtExn (e : exn)
| JsonDumps (indent : Z) (v : value).

Definition line : Type := list piece.

Inductive plt_call : Type :=
| plt_figure (width height : Z)
| plt_plot (xs : list value) (ys : list Q) (marker color : string)
| plt_xticks (rotation : Z)
| plt_ylabel (s : string)
| plt_title (s : string)
| plt_grid (b : bool)
| plt_tight_layout
| plt_show.

Inductive event : Type :=
| EPrint (l : line)
| EDeltaWrite (mode path : string) (rows : list row)
| ESleep (seconds : Q)
| EStop (query_id : string)
| EGetNumPartitions
| EDefaultParallelism
| EPlt (c : plt_call).

(** The session the notebook runs in: what has happened so far, the
    wall clock, the engine's active queries and its default parallelism. *)
Record world : Type := mkWorld {
  trace : list event;
  now : Q;
  active : list query;
  defaultParallelism : Z
}.

Definition emit (e : event) (w : world) : world :=
  mkWorld (trace w ++ [e]) (now w) (active w) (defaultParallelism w).

(** ** A state-and-exception monad

    State survives a raised exception: what a [try] block did before it
    raised stays done. *)
Module Py.

Section Monad.
Context {S : Type}.

Definition M (A : Type) : Type := S -> outcome A * S.

Definition ret {A : Type} (a : A) : M A := fun s => (Ok a, s).

Definition bind {A B : Type} (m : M A) (k : A -> M B) : M B :=
  fun s =>
    match m s with
    | (Ok a, s') => k a s'
    | (Raise e, s') => (Raise e, s')
    end.

Definition raise {A : Type} (e : exn) : M A := fun s => (Raise e, s).

(** A pure fallible expression evaluated inside a computation. *)
Definition lift {A : Type} (o : outcome A) : M A := fun s => (o, s).

(** [try: body except Exception as e: handler e]. *)
Definition try_except {A : Type} (body : M A) (handler : exn -> M A)
  : M A :=
  fun s =>
    match body s with
    | (Ok a, s') => (Ok a, s')
    | (Raise e, s') => handler e s'
    end.

(** [for x in l: body x]; an exception leaving the body ends the loop. *)
Fixpoint for_each {A : Type} (l : list A) (body : A -> M unit) : M unit :=
  match l with
  | [] => ret tt
  | x :: l' => bind (body x) (fun _ => for_each l' body)
  end.
End Monad.

Arguments M : clear implicits.

(** A block that only touches local variables [L], run from their initial
    values inside a computation over [S]; it hands back their final
    values. *)
Definition with_locals {S L : Type} (init : L) (m : M L unit) : M S L :=
  fun s =>
    match m init with
    | (Ok _, l) => (Ok l, s)
    | (Raise e, _) => (Raise e, s)
    end.

End Py.

Import Py.

Declare Scope py_scope.
Delimit Scope py_scope with py.
Notation "x <- c ;; k" := (bind c (fun x => k))
  (at level 61, c at next level, right associativity) : py_scope.
Notation "c ;; k" := (bind c (fun _ => k))
  (at level 61, right associativity) : py_scope.
Local Open Scope py_scope.

(** ** Builtins and library calls *)

Definition Qltb (x y : Q) : bool :=
  match (x ?= y)%Q with Lt => true | _ => false end.

(** [print(...)]: one line on the cell's output. *)
Definition print (l : line) : M world unit :=
  fun w => (Ok tt, emit (EPrint l) w).

(** [range(n)]. *)
Definition py_range (n : Z) : list Z :=
  map Z.of_nat (seq 0 (Z.to_nat n)).

(** [enumerate(l, start)]. *)
Fixpoint enumerate {A : Type} (start : Z) (l : list A) : list (Z * A) :=
  match l with
  | [] => []
  | x :: l' => (start, x) :: enumerate (start + 1) l'
  end.

(** [for p in v]: a list yields its items, a dictionary its keys, a string
    its characters; nothing else is iterable. *)
Definition py_iter (v : value) : outcome (list value) :=
  match v with
  | VList l => Ok l
  | VDict d => Ok (map (fun kv => VStr (fst kv)) d)
  | VStr s =>
      Ok (map (fun c => VStr (String c EmptyString)) (list_ascii_of_string s))
  | _ => Raise (TypeError "object is not iterable")
  end.

(** [time.sleep(d)]: refuses a negative length; otherwise the clock moves
    on by [d]. *)
Definition time_sleep (d : Q) : M world unit :=
  fun w =>
    if Qltb d 0 then (Raise (ValueError "sleep length must be non-negative"), w)
    else (Ok tt, mkWorld (trace w ++ [ESleep d]) (now w + d)%Q
                         (active w) (defaultParallelism w)).

(** [spark.range(a, b)]: the ids [a], ..., [b - 1]. *)
Definition spark_range (a b : Z) : list Z :=
  map (fun k => a + Z.of_nat k) (seq 0 (Z.to_nat (b - a))).

(** A batch DataFrame plan: its rows once the engine evaluates it at a
    given instant. *)
Definition plan : Type := Q -> list row.

(** [ids.withColumn("ts", current_timestamp())]: the timestamp is that of
    the evaluation, the same for every row. *)
Definition withColumn_ts (ids : list Z) : plan :=
  fun t => map (fun x => mkRow x t) ids.

(** [df.write.format("delta").mode(mode).save(path)]. *)
Definition delta_save (mode path : string) (df : plan) : M world unit :=
  fun w => (Ok tt, emit (EDeltaWrite mode path (df (now w))) w).

(** [spark.streams.active]: a fresh list of the running queries. *)
Definition spark_streams_active : M world (list query) :=
  fun w => (Ok (active w), w).

(** [q.stop()]: the engine shuts the query down and forgets it. *)
Definition query_stop (q : query) : M world unit :=
  fun w =>
    (Ok tt,
     mkWorld (trace w ++ [EStop (id q)]) (now w)
             (filter (fun q' => negb (String.eqb (id q') (id q))) (active w))
             (defaultParallelism w)).

(** [df.rdd.getNumPartitions()]: the engine refuses to turn a streaming
    DataFrame into an RDD. *)
Definition getNumPartitions (df : dataframe) : M world Z :=
  fun w =>
    if isStreaming df
    then (Raise (AnalysisException
            "Queries with streaming sources must be executed with writeStream.start()"), w)
    else (Ok (numPartitions df), emit EGetNumPartitions w).

(** [spark.sparkContext.defaultParallelism]. *)
Definition sparkContext_defaultParallelism : M world Z :=
  fun w => (Ok (defaultParallelism w), emit EDefaultParallelism w).

Definition plt (c : plt_call) : M world unit :=
  fun w => (Ok tt, emit (EPlt c) w).

(** [plt.plot(xs, ys, ...)]: the backend rejects series of different
    lengths. *)
Definition plt_plot_xy (xs : list value) (ys : list Q) (marker color : string)
  : M world unit :=
  if (List.length xs =? List.length ys)%nat
  then plt (plt_plot xs ys marker color)
  else raise (ValueError "x and y must have same first dimension").

(** ** The notebook's functions *)

(** [show_query_progress(query)] *)
Definition show_query_progress (query : query) : M world unit :=
  let progress := lastProgress query in
  print [Lit "Last Progress Snapshot:"] ;;
  print [JsonDumps 2 progress].

(** [int(p['durationMs']['triggerExecution'])] *)
Definition trigger_ms (p : value) : outcome Z :=
  match py_getitem p "durationMs" with
  | Raise e => Raise e
  | Ok d =>
      match py_getitem d "triggerExecution" with
      | Raise e => Raise e
      | Ok x => py_int x
      end
  end.

(** [int(p['durationMs']['triggerExecution']) / 1000] *)
Definition trigger_seconds (p : value) : outcome Q :=
  match trigger_ms p with
  | Raise e => Raise e
  | Ok t => Ok (inject_Z t / 1000)%Q
  end.

(** The lines of the three branches of [diagnose_performance]; a branch
    prints its lines one after the other. *)
Definition slower_advice : list line :=
  [ [Nl; Lit "[DIAGNOSIS] Batch is slower than trigger interval."];
    [Lit "- Tune transformations to reduce load."];
    [Lit "- Reduce input rate (e.g., maxOffsetsPerTrigger)."];
    [Lit "- Consider scaling up cluster cores or executors."] ].

Definition faster_advice : list line :=
  [ [Nl; Lit "[DIAGNOSIS] Batch is much faster than trigger."];
    [Lit "- You may be underutilizing resources."];
    [Lit "- Consider reducing trigger interval for lower latency."] ].

Definition balanced_advice : list line :=
  [ [Nl; Lit "[DIAGNOSIS] Trigger and batch are balanced."];
    [Lit "- Good balance. Monitor input growth and state size."] ].

Definition not_started_msg : line :=
  [Lit "No progress yet. Query may not have started."].

(** [diagnose_performance(query, interval=60)]; the comparisons are those
    of the source, [batch_time > trigger_interval] and
    [batch_time < trigger_interval * 0.5]. *)
Definition diagnose_performance (query : query) (interval : Q)
  : M world unit :=
  let progress := lastProgress query in
  if negb (py_truthy progress) then
    print not_started_msg
  else
    try_except
      (batch_time <- lift (trigger_seconds progress) ;;
       let trigger_interval := interval in
       print [Nl; Lit "Trigger Interval: "; FmtQ trigger_interval;
              Lit " seconds"] ;;
       print [Lit "Batch Duration: "; FmtQ2f batch_time; Lit " seconds"] ;;
       if Qltb trigger_interval batch_time then
         for_each slower_advice print
       else if Qltb batch_time (trigger_interval * (1 # 2))%Q then
         for_each faster_advice print
       else
         for_each balanced_advice print)
      (fun e =>
         print [Lit "Could not extract performance info:"; Lit " ";
                FmtExn e]).

Definition no_active_msg : line := [Lit "No active streaming queries."].

Definition query_line (i : Z) (q : query) : line :=
  [Lit "["; FmtZ i; Lit "] ID: "; FmtS (id q); Lit ", Name: ";
   FmtOpt (name q); Lit ", Status: "; FmtS (message (status q))].

(** [list_active_queries()] *)
Definition list_active_queries : M world unit :=
  queries <- spark_streams_active ;;
  match queries with
  | [] => print no_active_msg
  | _ :: _ =>
      for_each (enumerate 1 queries) (fun iq => print (query_line (fst iq) (snd iq)))
  end.

(** [stop_all_queries()] *)
Definition stop_all_queries : M world unit :=
  queries <- spark_streams_active ;;
  for_each queries (fun q =>
    print [Lit "Stopping query ID: "; FmtS (id q); Lit ", Name: ";
           FmtOpt (name q)] ;;
    query_stop q).

(** [simulate_delta_commits(base_path, num_batches, rows_per_batch,
    interval_sec)] *)
Definition simulate_delta_commits (base_path : string)
    (num_batches rows_per_batch : Z) (interval_sec : Q) : M world unit :=
  for_each (py_range num_batches) (fun i =>
    let df :=
      withColumn_ts
        (spark_range (i * rows_per_batch) ((i + 1) * rows_per_batch)) in
    delta_save "append" base_path df ;;
    print [Lit "Committed "; FmtZ rows_per_batch;
           Lit " rows to Delta at batch "; FmtZ i] ;;
    time_sleep interval_sec).

Definition streaming_warning : line :=
  [Lit "⚠️ Cannot check partitions on a streaming DataFrame. Try this after writing to Delta or converting to batch."].

Definition under_partitioned_msg : line :=
  [Lit "⚠️ Under-partitioned: not all cores will be used."].

Definition over_partitioned_msg : line :=
  [Lit "⚠️ Over-partitioned: could lead to overhead and small files."].

Definition balanced_partitions_msg : line :=
  [Lit "✅ Partitioning is well balanced with available cores."].

(** [check_partitions_and_cores_static(df)] *)
Definition check_partitions_and_cores_static (df : dataframe)
  : M world unit :=
  if isStreaming df then
    print streaming_warning
  else
    num_partitions <- getNumPartitions df ;;
    total_cores <- sparkContext_defaultParallelism ;;
    print [Lit "DataFrame partitions: "; FmtZ num_partitions] ;;
    print [Lit "Available cluster cores: "; FmtZ total_cores] ;;
    if num_partitions <? total_cores then
      print under_partitioned_msg
    else if num_partitions >? total_cores * 4 then
      print over_partitioned_msg
    else
      print balanced_partitions_msg.

(** The two lists [plot_task_durations] fills. *)
Record plot_locals : Type := mkLocals {
  durations : list Q;
  timestamps : list value
}.

Definition durations_append (d : Q) : M plot_locals unit :=
  fun l => (Ok tt, mkLocals (durations l ++ [d]) (timestamps l)).

Definition timestamps_append (t : value) : M plot_locals unit :=
  fun l => (Ok tt, mkLocals (durations l) (timestamps l ++ [t])).

(** The body of the loop of [plot_task_durations]: each [append] runs as
    soon as its argument is evaluated. *)
Definition collect_point (p : value) : M plot_locals unit :=
  try_except
    (d <- lift (trigger_seconds p) ;;
     durations_append d ;;
     t <- lift (py_getitem p "timestamp") ;;
     timestamps_append t)
    (fun _ => ret tt).

Definition no_history_msg : line := [Lit "No progress history available."].

Definition no_valid_durations_msg : line :=
  [Lit "No valid durations to plot."].

(** [plot_task_durations(query)]; the function-local import of
    [IPython.display] has no effect in a notebook and is left out. *)
Definition plot_task_durations (query : query) : M world unit :=
  let progress_history := recentProgress query in
  if negb (py_truthy progress_history) then
    print no_history_msg
  else
    history <- lift (py_iter progress_history) ;;
    locals <- with_locals (mkLocals [] []) (for_each history collect_point) ;;
    match durations locals with
    | _ :: _ =>
        plt (plt_figure 10 4) ;;
        plt_plot_xy (timestamps locals) (durations locals) "o" "dodgerblue" ;;
        plt (plt_xticks 45) ;;
        plt (plt_ylabel "Trigger Duration (sec)") ;;
        plt (plt_title "Micro-Batch Execution Time over Time") ;;
        plt (plt_grid true) ;;
        plt plt_tight_layout ;;
        plt plt_show
    | [] => print no_valid_durations_msg
    end.

(** ** The query listener *)

Definition hex_digit (n : nat) : ascii :=
  nth n (list_ascii_of_string "0123456789abcdef") "0"%char.

(** One character of [repr(s)] for the quote character in use. Bytes
    beyond ASCII stand for printable text and are copied. *)
Definition repr_char (quote c : ascii) : list ascii :=
  let n := nat_of_ascii c in
  if Ascii.eqb c quote || Ascii.eqb c "\"%char then ["\"%char; c]
  else if (n =? 9)%nat then ["\"%char; "t"%char]
  else if (n =? 10)%nat then ["\"%char; "n"%char]
  else if (n =? 13)%nat then ["\"%char; "r"%char]
  else if (n <? 32)%nat || (n =? 127)%nat
       then ["\"%char; "x"%char; hex_digit (n / 16); hex_digit (n mod 16)]
  else [c].

(** [repr(s)] of a string: single quotes, unless the string holds a
    single quote and no double quote. *)
Definition repr_string (s : string) : string :=
  let l := list_ascii_of_string s in
  let dq := ascii_of_nat 34 in
  let quote :=
    if existsb (Ascii.eqb "'"%char) l && negb (existsb (Ascii.eqb dq) l)
    then dq else "'"%char in
  string_of_list_ascii (quote :: flat_map (repr_char quote) l ++ [quote]).

(** [repr(v)], numbers left unrendered. *)
Fixpoint py_repr (v : value) : list piece :=
  match v with
  | VNone => [Lit "None"]
  | VBool b => [Lit (if b then "True" else "False")]
  | VInt z => [FmtZ z]
  | VFloat q => [FmtQ q]
  | VStr s => [Lit (repr_string s)]
  | VList l =>
      Lit "["
      :: (fix items (first : bool) (l : list value) : list piece :=
            match l with
            | [] => []
            | x :: l' =>
                ((if first then [] else [Lit ", "])
                 ++ py_repr x ++ items false l')%list
            end) true l
      ++ [Lit "]"]
  | VDict d =>
      Lit "{"
      :: (fix items (first : bool) (d : list (string * value)) : list piece :=
            match d with
            | [] => []
            | (k, x) :: d' =>
                ((if first then [] else [Lit ", "])
                 ++ Lit (repr_string k) :: Lit ": " :: py_repr x
                 ++ items false d')%list
            end) true d
      ++ [Lit "}"]
  end.

(** [{v}] in an f-string: [str(v)], which is the text itself for a string
    and [repr(v)] otherwise. *)
Definition py_str (v : value) : list piece :=
  match v with
  | VStr s => [FmtS s]
  | _ => py_repr v
  end.

(** The event the engine hands to a listener after a batch. *)
Record progress_event : Type := mkProgressEvent {
  progress : value
}.

(** [QueryLogger.onQueryProgress(self, event)] *)
Definition onQueryProgress (event : progress_event) : M world unit :=
  let progress := progress event in
  batchId <- lift (py_getitem progress "batchId") ;;
  timestamp <- lift (py_getitem progress "timestamp") ;;
  numInputRows <- lift (py_getitem progress "numInputRows") ;;
  durationMs <- lift (py_getitem progress "durationMs") ;;
  triggerExecution <- lift (py_getitem durationMs "triggerExecution") ;;
  print ([Lit "[Batch "] ++ py_str batchId ++ [Lit "] "] ++ py_str timestamp
         ++ [Lit " | Rows: "] ++ py_str numInputRows
         ++ [Lit " | Duration: "] ++ py_str triggerExecution
         ++ [Lit "ms"])%list.

(** * Vocabulary of the statements *)

(** The world after the events [es] have happened. *)
Definition emits (es : list event) (w : world) : world :=
  mkWorld (trace w ++ es) (now w) (active w) (defaultParallelism w).

(** The world after the lines [ls] have been printed. *)
Definition prints (ls : list line) (w : world) : world :=
  emits (map EPrint ls) w.

(** The three reports of [diagnose_performance]. *)
Inductive diagnosis : Type := Slower | MuchFaster | Balanced.

Definition advice (d : diagnosis) : list line :=
  match d with
  | Slower => slower_advice
  | MuchFaster => faster_advice
  | Balanced => balanced_advice
  end.

(** The two lines printed before the diagnosis. *)
Definition report_header (interval : Q) (T : Z) : list line :=
  [ [Nl; Lit "Trigger Interval: "; FmtQ interval; Lit " seconds"];
    [Lit "Batch Duration: "; FmtQ2f (inject_Z T / 1000)%Q; Lit " seconds"] ].

Definition extraction_error_msg (e : exn) : line :=
  [Lit "Could not extract performance info:"; Lit " "; FmtExn e].

Inductive partitioning : Type :=
  UnderPartitioned | OverPartitioned | WellBalanced.

Definition verdict_msg (v : partitioning) : line :=
  match v with
  | UnderPartitioned => under_partitioned_msg
  | OverPartitioned => over_partitioned_msg
  | WellBalanced => balanced_partitions_msg
  end.

(** What a completed audit leaves in the trace: the two reads, the two
    counts, the verdict. *)
Definition audit_events (P C : Z) (v : partitioning) : list event :=
  [ EGetNumPartitions; EDefaultParallelism;
    EPrint [Lit "DataFrame partitions: "; FmtZ P];
    EPrint [Lit "Available cluster cores: "; FmtZ C];
    EPrint (verdict_msg v) ].

(** The rows of the batch written at iteration [i] at instant [t]. *)
Definition batch_rows (rows_per_batch i : Z) (t : Q) : list row :=
  withColumn_ts
    (spark_range (i * rows_per_batch) ((i + 1) * rows_per_batch)) t.

(** What the iterations [l] of the loop leave in the trace when the first
    of them starts at instant [t]. *)
Fixpoint sim_events (path : string) (r : Z) (d t : Q) (l : list Z)
  : list event :=
  match l with
  | [] => []
  | i :: l' =>
      EDeltaWrite "append" path (batch_rows r i t)
      :: EPrint [Lit "Committed "; FmtZ r;
                 Lit " rows to Delta at batch "; FmtZ i]
      :: ESleep d
      :: sim_events path r d (t + d)%Q l'
  end.

(** The clock after [k] sleeps of [d] seconds. *)
Fixpoint clock_after (t d : Q) (k : nat) : Q :=
  match k with
  | O => t
  | S k' => clock_after (t + d)%Q d k'
  end.

(** The appends recorded in a trace, in order. *)
Fixpoint delta_writes (es : list event) : list (string * string * list row) :=
  match es with
  | [] => []
  | EDeltaWrite mode path rows :: es' => (mode, path, rows) :: delta_writes es'
  | _ :: es' => delta_writes es'
  end.

(** The sleeps recorded in a trace, in order. *)
Fixpoint sleeps (es : list event) : list Q :=
  match es with
  | [] => []
  | ESleep d :: es' => d :: sleeps es'
  | _ :: es' => sleeps es'
  end.

(** A trace reduced to its commits and sleeps. *)
Inductive step : Type := StepCommit | StepSleep (d : Q).

Fixpoint schedule (es : list event) : list step :=
  match es with
  | [] => []
  | EDeltaWrite _ _ _ :: es' => StepCommit :: schedule es'
  | ESleep d :: es' => StepSleep d :: schedule es'
  | _ :: es' => schedule es'
  end.

Definition Qsum (l : list Q) : Q := fold_right Qplus 0%Q l.

(** The batches of the iterations [l], the first written at instant [t]. *)
Fixpoint sim_batches (r : Z) (d t : Q) (l : list Z) : list (list row) :=
  match l with
  | [] => []
  | i :: l' => batch_rows r i t :: sim_batches r d (t + d)%Q l'
  end.

(** The point a snapshot contributes when both of its fields can be read. *)
Definition point_of (p : value) : option (value * Q) :=
  match trigger_seconds p, py_getitem p "timestamp" with
  | Ok d, Ok t => Some (t, d)
  | _, _ => None
  end.

(** The points of the snapshots of a history that have one, in order. *)
Fixpoint valid_points (h : list value) : list (value * Q) :=
  match h with
  | [] => []
  | p :: h' =>
      match point_of p with
      | Some pt => pt :: valid_points h'
      | None => valid_points h'
      end
  end.

(** The calls that draw the chart of the points [pts]. *)
Definition chart_events (pts : list (value * Q)) : list event :=
  map EPlt
    [ plt_figure 10 4;
      plt_plot (map fst pts) (map snd pts) "o" "dodgerblue";
      plt_xticks 45;
      plt_ylabel "Trigger Duration (sec)";
      plt_title "Micro-Batch Execution Time over Time";
      plt_grid true;
      plt_tight_layout;
      plt_show ].

(** A fresh session on an 8-core cluster. *)
Definition session : world := mkWorld [] 0 [] 8.

(** A progress snapshot as the engine reports it. *)
Definition snapshot (ms ts : value) : value :=
  VDict [ ("batchId", VInt 7);
          ("timestamp", ts);
          ("numInputRows", VInt 2000);
          ("durationMs", VDict [("addBatch", VInt 310);
                                ("triggerExecution", ms)]) ].

(** A snapshot that lost its timestamp. *)
Definition snapshot_without_timestamp (ms : value) : value :=
  VDict [ ("batchId", VInt 7);
          ("numInputRows", VInt 2000);
          ("durationMs", VDict [("triggerExecution", ms)]) ].

Definition waiting : query_status :=
  mkStatus "Waiting for data to arrive" false false.

Definition query_with (last recent : value) : query :=
  mkQuery "0f1b6c1e" (Some "stream_test") waiting last recent.

(** Five snapshots, two of them with a malformed duration: the chart is
    drawn from the other three, in order. *)
Definition history_5 : list value :=
  [ snapshot (VInt 1000) (VStr "2025-03-01T10:00:00.000Z");
    snapshot (VStr "n/a") (VStr "2025-03-01T10:00:10.000Z");
    snapshot (VInt 3000) (VStr "2025-03-01T10:00:20.000Z");
    snapshot VNone (VStr "2025-03-01T10:00:30.000Z");
    snapshot (VInt 5000) (VStr "2025-03-01T10:00:40.000Z") ].

(** A snapshot with a readable duration and no timestamp, followed by a
    complete one. *)
Definition history_slip : list value :=
  [ snapshot_without_timestamp (VInt 1000);
    snapshot (VInt 2000) (VStr "2025-03-01T10:00:10.000Z") ].

(** The stops recorded in a trace, in order. *)
Fixpoint stops (es : list event) : list string :=
  match es with
  | [] => []
  | EStop i :: es' => i :: stops es'
  | _ :: es' => stops es'
  end.

(** The lines printed in a trace, in order. *)
Fixpoint printed (es : list event) : list line :=
  match es with
  | [] => []
  | EPrint l :: es' => l :: printed es'
  | _ :: es' => printed es'
  end.

(** The ids of the rows appended in a trace, in order. *)
Definition written_ids (es : list event) : list Z :=
  flat_map (fun c => map row_id (snd c)) (delta_writes es).

Definition stopping_line (q : query) : line :=
  [Lit "Stopping query ID: "; FmtS (id q); Lit ", Name: "; FmtOpt (name q)].

(** What stopping the queries [l] one after the other leaves in the
    trace. *)
Definition stop_events (l : list query) : list event :=
  flat_map (fun q => [EPrint (stopping_line q); EStop (id q)]) l.

(** The registry once the queries [l] have been stopped. *)
Definition registry_without (l : list query) (registry : list query)
  : list query :=
  fold_left
    (fun a q => filter (fun q' => negb (String.eqb (id q') (id q))) a)
    l registry.

Definition committed_line (r i : Z) : line :=
  [Lit "Committed "; FmtZ r; Lit " rows to Delta at batch "; FmtZ i].

(** The durations, in seconds, of the snapshots whose duration can be
    read, in order. *)
Fixpoint readable_durations (h : list value) : list Q :=
  match h with
  | [] => []
  | p :: h' =>
      match trigger_seconds p with
      | Ok d => d :: readable_durations h'
      | Raise _ => readable_durations h'
      end
  end.

(** A snapshot whose duration can be read and whose timestamp cannot. *)
Definition lacks_timestamp (p : value) : bool :=
  is_ok (trigger_seconds p) && negb (is_ok (py_getitem p "timestamp")).

(** Whether the five lookups of [onQueryProgress] all succeed. *)
Definition logger_fields_present (p : value) : bool :=
  is_ok (py_getitem p "batchId")
  && is_ok (py_getitem p "timestamp")
  && is_ok (py_getitem p "numInputRows")
  && match py_getitem p "durationMs" with
     | Ok d => is_ok (py_getitem d "triggerExecution")
     | Raise _ => false
     end.

(** * Properties *)

(** ** Traces *)

Lemma emits_nil (w : world) : emits [] w = w.
Proof. destruct w; unfold emits; simpl; now rewrite app_nil_r. Qed.

Lemma emit_emits (e : event) (es : list event) (w : world) :
  emit e (emits es w) = emits (es ++ [e]) w.
Proof. unfold emit, emits; simpl; now rewrite app_assoc. Qed.

Lemma emits_emits (es es' : list event) (w : world) :
  emits es' (emits es w) = emits (es ++ es') w.
Proof. unfold emits; simpl; now rewrite app_assoc. Qed.

Lemma emit_one (e : event) (w : world) : emit e w = emits [e] w.
Proof. reflexivity. Qed.

Lemma for_each_print (ls : list line) (w : world) :
  for_each ls print w = (Ok tt, prints ls w).
Proof.
  revert w; induction ls as [|l ls IH]; intro w.
  - unfold prints; simpl; now rewrite emits_nil.
  - simpl; unfold bind, print at 1; rewrite IH.
    unfold prints; now rewrite emit_one, emits_emits.
Qed.

Lemma Qltb_lt (x y : Q) : Qltb x y = true <-> (x < y)%Q.
Proof.
  unfold Qltb; rewrite Qlt_alt.
  destruct (x ?= y)%Q; split; congruence.
Qed.

Lemma Qltb_ge (x y : Q) : Qltb x y = false <-> (y <= x)%Q.
Proof.
  split; intro H.
  - apply Qnot_lt_le; intro L; apply Qltb_lt in L; congruence.
  - destruct (Qltb x y) eqn:E; [|reflexivity].
    apply Qltb_lt in E; exfalso; revert E; now apply Qle_not_lt.
Qed.


(** ** Performance diagnoser *)

(** With a snapshot whose duration field reads [T], the function prints
    the header and the advice of exactly one diagnosis, chosen by the two
    comparisons of the source. *)
Lemma diagnose_performance_run (q : query) (I : Q) (T : Z) (w : world) :
  py_truthy (lastProgress q) = true ->
  trigger_ms (lastProgress q) = Ok T ->
  diagnose_performance q I w =
    (Ok tt,
     prints (report_header I T ++
             advice (if Qltb I (inject_Z T / 1000)%Q then Slower
                     else if Qltb (inject_Z T / 1000)%Q (I * (1 # 2))%Q
                          then MuchFaster else Balanced)) w).
Proof.
  intros Htruthy Hms.
  unfold diagnose_performance, try_except, bind, lift, trigger_seconds.
  rewrite Htruthy, Hms; cbv beta iota zeta delta [negb].
  unfold print at 1 2; cbv beta iota.
  set (bt := (inject_Z T / 1000)%Q).
  destruct (Qltb I bt); [|destruct (Qltb bt (I * (1 # 2))%Q)];
    rewrite for_each_print; unfold prints;
    now rewrite !emit_one, !emits_emits, map_app.
Qed.


Lemma diagnose_performance_not_started (q : query) (I : Q) (w : world) :
  py_truthy (lastProgress q) = false ->
  diagnose_performance q I w = print not_started_msg w.
Proof.
  intro Hfalsy; unfold diagnose_performance; now rewrite Hfalsy.
Qed.

Lemma diagnose_performance_soft_error
    (q : query) (I : Q) (e : exn) (w : world) :
  py_truthy (lastProgress q) = true ->
  trigger_ms (lastProgress q) = Raise e ->
  diagnose_performance q I w = print (extraction_error_msg e) w.
Proof.
  intros Htruthy Hms.
  unfold diagnose_performance, try_except, bind, lift, trigger_seconds.
  now rewrite Htruthy, Hms.
Qed.

(** C5. [diagnose_performance] always returns normally, and all it does
    is print. With no progress snapshot ([None], or any falsy value) it
    prints the not-started message and nothing else happens; when reading
    the duration field raises [e], the exception is caught and the
    soft-error line naming [e] is printed. *)
Theorem diagnose_performance_never_raises (q : query) (I : Q) (w : world) :
  exists ls : list line,
    diagnose_performance q I w = (Ok tt, prints ls w) /\
    (py_truthy (lastProgress q) = false -> ls = [not_started_msg]) /\
    (forall e,
        py_truthy (lastProgress q) = true ->
        trigger_ms (lastProgress q) = Raise e ->
        ls = [extraction_error_msg e]).
Proof.
  destruct (py_truthy (lastProgress q)) eqn:Htruthy.
  - destruct (trigger_ms (lastProgress q)) as [T|e] eqn:Hms.
    + eexists; split;
        [apply (diagnose_performance_run q I T w); assumption|].
      split; intros; discriminate.
    + exists [extraction_error_msg e]; split.
      * now rewrite (diagnose_performance_soft_error q I e).
      * split; intros; congruence.
  - exists [not_started_msg]; split.
    + now rewrite diagnose_performance_not_started.
    + split; intros; [reflexivity | discriminate].
Qed.

(** ** Progress reader *)

(** C9. When no batch has completed ([lastProgress] is [None]),
    [show_query_progress] returns normally; it prints the fixed header and
    the JSON rendering of [None], which carry no telemetry, and has no
    other effect. *)
Theorem show_query_progress_no_snapshot (q : query) (w : world) :
  lastProgress q = VNone ->
  show_query_progress q w
    = (Ok tt, prints [[Lit "Last Progress Snapshot:"]; [JsonDumps 2 VNone]] w).
Proof.
  intro Hnone; unfold show_query_progress, bind, print, prints.
  rewrite Hnone; cbv beta iota.
  now rewrite !emit_one, emits_emits.
Qed.

(** ** Partition auditor *)

Lemma check_partitions_run (df : dataframe) (w : world) :
  isStreaming df = false ->
  check_partitions_and_cores_static df w =
    (Ok tt,
     emits (audit_events (numPartitions df) (defaultParallelism w)
              (if numPartitions df <? defaultParallelism w
               then UnderPartitioned
               else if numPartitions df >? defaultParallelism w * 4
                    then OverPartitioned else WellBalanced)) w).
Proof.
  intro Hstatic.
  unfold check_partitions_and_cores_static, bind, getNumPartitions,
    sparkContext_defaultParallelism.
  rewrite Hstatic; cbv beta iota.
  unfold print at 1 2; cbv beta iota.
  change (defaultParallelism (emit EGetNumPartitions w))
    with (defaultParallelism w).
  destruct (numPartitions df <? defaultParallelism w);
    [|destruct (numPartitions df >? defaultParallelism w * 4)];
    unfold print, audit_events; now rewrite !emit_one, !emits_emits.
Qed.

(** C3. For a non-streaming DataFrame with [P] partitions on a cluster
    with [C] cores (counts, so one of them non-negative), the audit reads
    both numbers, prints them, and reports under-partitioned exactly when
    [P < C], over-partitioned exactly when [P > C*4], and balanced
    otherwise. *)
Theorem check_partitions_classifies (df : dataframe) (w : world) :
  isStreaming df = false ->
  (0 <= numPartitions df \/ 0 <= defaultParallelism w) ->
  exists v : partitioning,
    check_partitions_and_cores_static df w
      = (Ok tt,
         emits (audit_events (numPartitions df) (defaultParallelism w) v) w) /\
    (v = UnderPartitioned <-> numPartitions df < defaultParallelism w) /\
    (v = OverPartitioned <-> numPartitions df > defaultParallelism w * 4) /\
    (v = WellBalanced <->
       ~ numPartitions df < defaultParallelism w /\
       ~ numPartitions df > defaultParallelism w * 4).
Proof.
  intros Hstatic Hcount.
  eexists; split; [now apply check_partitions_run|].
  destruct (numPartitions df <? defaultParallelism w) eqn:E1;
    [apply Z.ltb_lt in E1
    |apply Z.ltb_ge in E1;
     destruct (numPartitions df >? defaultParallelism w * 4) eqn:E2;
       [apply Z.gtb_lt in E2
       |rewrite Z.gtb_ltb in E2; apply Z.ltb_ge in E2]].
  all: repeat split; intros; try discriminate; try reflexivity; try lia.
Qed.

(** C6. For a streaming DataFrame the audit prints the warning and
    returns normally: neither the partition count nor the core count is
    read, and no verdict is printed. *)
Theorem check_partitions_refuses_streaming (df : dataframe) (w : world) :
  isStreaming df = true ->
  check_partitions_and_cores_static df w
    = (Ok tt, emits [EPrint streaming_warning] w).
Proof.
  intro Hstreaming; unfold check_partitions_and_cores_static.
  now rewrite Hstreaming.
Qed.

(** ** Duration plotter: no history *)

Lemma plot_task_durations_falsy (q : query) (w : world) :
  py_truthy (recentProgress q) = false ->
  plot_task_durations q w = (Ok tt, emits [EPrint no_history_msg] w).
Proof.
  intro Hfalsy; unfold plot_task_durations; now rewrite Hfalsy.
Qed.

(** C10. When the recent-progress history is absent ([None]) or empty,
    [plot_task_durations] prints the no-progress-history message and
    returns: the whole run is that one [print], so no snapshot is read
    and the plotting backend is not called. *)
Theorem plot_task_durations_no_history (q : query) (w : world) :
  recentProgress q = VNone \/ recentProgress q = VList [] ->
  plot_task_durations q w = (Ok tt, emits [EPrint no_history_msg] w).
Proof.
  intros [H|H]; apply plot_task_durations_falsy; now rewrite H.
Qed.

(** ** Query registry inspector *)

Lemma for_each_print_map {A : Type} (f : A -> line) (l : list A) (w : world) :
  for_each l (fun x => print (f x)) w = (Ok tt, prints (map f l) w).
Proof.
  revert w; induction l as [|x l IH]; intro w.
  - unfold prints; simpl; now rewrite emits_nil.
  - simpl; unfold bind, print at 1; rewrite IH.
    unfold prints; now rewrite emit_one, emits_emits.
Qed.

Lemma enumerate_length {A : Type} (l : list A) (s : Z) :
  List.length (enumerate s l) = List.length l.
Proof.
  revert s; induction l as [|x l IH]; intro s; simpl; [|rewrite IH];
    reflexivity.
Qed.

Lemma enumerate_nth_error {A : Type} (l : list A) (s : Z) (k : nat) (x : A) :
  nth_error l k = Some x ->
  nth_error (enumerate s l) k = Some (s + Z.of_nat k, x).
Proof.
  revert s k; induction l as [|y l IH]; intros s k H.
  - destruct k; discriminate.
  - destruct k as [|k]; simpl in *.
    + injection H as ->; now rewrite Z.add_0_r.
    + rewrite (IH (s + 1) k H); f_equal; f_equal; lia.
Qed.

(** C7. With no active query, [list_active_queries] prints exactly the
    no-active-queries message and [stop_all_queries] does nothing at all
    (no stop is issued). With active queries, [list_active_queries]
    prints one line per query, in the engine's order, the [k]-th (from 0)
    carrying the index [k + 1] and the query's id, name and status
    message. *)
Theorem registry_inspector (w : world) :
  (active w = [] ->
     list_active_queries w = (Ok tt, prints [no_active_msg] w) /\
     stop_all_queries w = (Ok tt, w)) /\
  (active w <> [] ->
     exists ls : list line,
       list_active_queries w = (Ok tt, prints ls w) /\
       List.length ls = List.length (active w) /\
       forall (k : nat) (q : query),
         nth_error (active w) k = Some q ->
         nth_error ls k =
           Some [Lit "["; FmtZ (Z.of_nat k + 1); Lit "] ID: "; FmtS (id q);
                 Lit ", Name: "; FmtOpt (name q); Lit ", Status: ";
                 FmtS (message (status q))]).
Proof.
  split.
  - intro Hnone.
    unfold list_active_queries, stop_all_queries, bind, spark_streams_active.
    rewrite Hnone; split; reflexivity.
  - intro Hsome.
    exists (map (fun iq => query_line (fst iq) (snd iq))
                (enumerate 1 (active w))).
    split; [|split].
    + unfold list_active_queries, bind, spark_streams_active.
      destruct (active w) as [|q0 qs] eqn:Hactive; [contradiction|].
      apply for_each_print_map.
    + now rewrite length_map, enumerate_length.
    + intros k q Hk.
      rewrite nth_error_map, (enumerate_nth_error _ 1 k q Hk).
      cbn [option_map fst snd]; unfold query_line.
      now replace (1 + Z.of_nat k) with (Z.of_nat k + 1) by lia.
Qed.

(** ** Synthetic commit generator *)

Lemma simulate_iteration (path : string) (r i : Z) (d : Q) (w : world) :
  (0 <= d)%Q ->
  (delta_save "append" path
     (withColumn_ts (spark_range (i * r) ((i + 1) * r))) ;;
   print [Lit "Committed "; FmtZ r; Lit " rows to Delta at batch "; FmtZ i] ;;
   time_sleep d) w
  = (Ok tt,
     mkWorld (trace w ++ sim_events path r d (now w) [i])
             (now w + d)%Q (active w) (defaultParallelism w)).
Proof.
  intro Hd; apply Qltb_ge in Hd.
  unfold bind, delta_save, print, time_sleep; cbv beta iota; rewrite Hd.
  cbn [trace now active defaultParallelism emit sim_events]; unfold batch_rows.
  now rewrite <- !app_assoc.
Qed.

Lemma simulate_loop (path : string) (r : Z) (d : Q) (l : list Z) (w : world) :
  (0 <= d)%Q ->
  for_each l (fun i =>
    delta_save "append" path
      (withColumn_ts (spark_range (i * r) ((i + 1) * r))) ;;
    print [Lit "Committed "; FmtZ r; Lit " rows to Delta at batch "; FmtZ i] ;;
    time_sleep d) w
  = (Ok tt,
     mkWorld (trace w ++ sim_events path r d (now w) l)
             (clock_after (now w) d (List.length l))
             (active w) (defaultParallelism w)).
Proof.
  intro Hd; revert w; induction l as [|i l IH]; intro w.
  - simpl; rewrite app_nil_r; now destruct w.
  - cbn [for_each]; unfold bind at 1.
    rewrite (simulate_iteration path r i d w Hd), IH.
    cbn [trace now active defaultParallelism sim_events List.length
         clock_after].
    now rewrite <- !app_assoc.
Qed.

Lemma simulate_delta_commits_run
    (path : string) (n r : Z) (d : Q) (w : world) :
  (0 <= d)%Q ->
  simulate_delta_commits path n r d w
  = (Ok tt,
     mkWorld (trace w ++ sim_events path r d (now w) (py_range n))
             (clock_after (now w) d (Z.to_nat n))
             (active w) (defaultParallelism w)).
Proof.
  intro Hd; unfold simulate_delta_commits; cbv zeta.
  rewrite (simulate_loop path r d (py_range n) w Hd).
  unfold py_range; now rewrite length_map, length_seq.
Qed.

Lemma delta_writes_app (es es' : list event) :
  delta_writes (es ++ es') = (delta_writes es ++ delta_writes es')%list.
Proof.
  induction es as [|e es IH]; [reflexivity|].
  destruct e; simpl; now rewrite IH.
Qed.

Lemma sleeps_app (es es' : list event) :
  sleeps (es ++ es') = (sleeps es ++ sleeps es')%list.
Proof.
  induction es as [|e es IH]; [reflexivity|].
  destruct e; simpl; now rewrite IH.
Qed.

Lemma delta_writes_sim_events (path : string) (r : Z) (d t : Q) (l : list Z) :
  delta_writes (sim_events path r d t l)
  = map (fun rows => ("append", path, rows)) (sim_batches r d t l).
Proof.
  revert t; induction l as [|i l IH]; intro t; simpl; [|rewrite IH];
    reflexivity.
Qed.

Lemma sim_batches_length (r : Z) (d t : Q) (l : list Z) :
  List.length (sim_batches r d t l) = List.length l.
Proof.
  revert t; induction l as [|i l IH]; intro t; simpl; [|rewrite IH];
    reflexivity.
Qed.

Lemma sim_batches_nth (r : Z) (d : Q) (k a j : nat) (t : Q) :
  (j < k)%nat ->
  nth_error (sim_batches r d t (map Z.of_nat (seq a k))) j
  = Some (batch_rows r (Z.of_nat (a + j)) (clock_after t d j)).
Proof.
  revert a j t; induction k as [|k IH]; intros a j t Hj; [lia|].
  destruct j as [|j]; simpl.
  - now rewrite Nat.add_0_r.
  - rewrite IH by lia. now replace (a + S j)%nat with (S a + j)%nat by lia.
Qed.

Lemma spark_range_length (a b : Z) :
  List.length (spark_range a b) = Z.to_nat (b - a).
Proof. unfold spark_range; now rewrite length_map, length_seq. Qed.

Lemma spark_range_nth (a b : Z) (k : nat) :
  (k < Z.to_nat (b - a))%nat ->
  nth_error (spark_range a b) k = Some (a + Z.of_nat k).
Proof.
  intro Hk; unfold spark_range.
  rewrite nth_error_map, nth_error_seq.
  now apply Nat.ltb_lt in Hk as ->.
Qed.

Lemma batch_rows_length (r i : Z) (t : Q) :
  0 <= r -> Z.of_nat (List.length (batch_rows r i t)) = r.
Proof.
  intro Hr; unfold batch_rows, withColumn_ts.
  rewrite length_map, spark_range_length; lia.
Qed.

Lemma batch_rows_nth (r i k : Z) (t : Q) :
  0 <= k < r ->
  nth_error (batch_rows r i t) (Z.to_nat k) = Some (mkRow (i * r + k) t).
Proof.
  intro Hk; unfold batch_rows, withColumn_ts.
  rewrite nth_error_map, spark_range_nth by lia.
  simpl; do 2 f_equal; lia.
Qed.

Lemma schedule_sim_events (path : string) (r : Z) (d t : Q) (l : list Z) :
  schedule (sim_events path r d t l)
  = flat_map (fun _ => [StepCommit; StepSleep d]) l.
Proof.
  revert t; induction l as [|i l IH]; intro t; simpl; [|rewrite IH];
    reflexivity.
Qed.

Lemma sleeps_sim_events (path : string) (r : Z) (d t : Q) (l : list Z) :
  sleeps (sim_events path r d t l) = repeat d (List.length l).
Proof.
  revert t; induction l as [|i l IH]; intro t; simpl; [|rewrite IH];
    reflexivity.
Qed.

Lemma Qsum_repeat (d : Q) (k : nat) :
  (Qsum (repeat d k) == inject_Z (Z.of_nat k) * d)%Q.
Proof.
  induction k as [|k IH].
  - change (0 == 0 * d)%Q; lra.
  - change (d + Qsum (repeat d k) == inject_Z (Z.of_nat (S k)) * d)%Q.
    rewrite IH, Nat2Z.inj_succ; unfold Z.succ.
    rewrite inject_Z_plus; change (inject_Z 1) with 1%Q; lra.
Qed.

(** C4. For [n >= 0] batches of [r >= 0] rows (and a sleep length that
    [time.sleep] accepts), [simulate_delta_commits] returns normally after
    issuing exactly [n] writes, all in mode "append" to the target
    location, in iteration order; the [i]-th (from 0) holds exactly [r]
    rows, its [k]-th row having the id [i*r + k] -- the integers from
    [i*r] to [(i+1)*r - 1] -- and the timestamp of that write. *)
Theorem simulate_delta_commits_appends
    (path : string) (n r : Z) (d : Q) (w : world) :
  0 <= n -> 0 <= r -> (0 <= d)%Q ->
  exists (w' : world) (batches : list (list row)),
    simulate_delta_commits path n r d w = (Ok tt, w') /\
    delta_writes (trace w')
      = (delta_writes (trace w)
         ++ map (fun rows => ("append", path, rows)) batches)%list /\
    Z.of_nat (List.length batches) = n /\
    forall i : Z, 0 <= i < n ->
      exists (rows : list row) (ts : Q),
        nth_error batches (Z.to_nat i) = Some rows /\
        Z.of_nat (List.length rows) = r /\
        forall k : Z, 0 <= k < r ->
          nth_error rows (Z.to_nat k) = Some (mkRow (i * r + k) ts).
Proof.
  intros Hn Hr Hd.
  eexists; exists (sim_batches r d (now w) (py_range n)).
  split; [now apply simulate_delta_commits_run|].
  cbn [trace]; split; [|split].
  - now rewrite delta_writes_app, delta_writes_sim_events.
  - rewrite sim_batches_length; unfold py_range.
    rewrite length_map, length_seq; lia.
  - intros i Hi.
    exists (batch_rows r i (clock_after (now w) d (Z.to_nat i))).
    exists (clock_after (now w) d (Z.to_nat i)).
    split; [|split].
    + unfold py_range; rewrite sim_batches_nth by lia.
      now rewrite Nat.add_0_l, Z2Nat.id by lia.
    + now apply batch_rows_length.
    + intros k Hk; now apply batch_rows_nth.
Qed.

(** C8. Over a full run of [n >= 0] iterations, [simulate_delta_commits]
    sleeps [interval_sec] after every commit, hence between any two
    consecutive iterations: the run issues exactly [n] sleeps, each of
    [interval_sec] seconds, [n * interval_sec] seconds in all. *)
Theorem simulate_delta_commits_sleeps
    (path : string) (n r : Z) (d : Q) (w : world) :
  0 <= n -> (0 <= d)%Q ->
  exists (w' : world) (new : list event),
    simulate_delta_commits path n r d w = (Ok tt, w') /\
    trace w' = (trace w ++ new)%list /\
    schedule new = flat_map (fun _ => [StepCommit; StepSleep d]) (py_range n) /\
    sleeps new = repeat d (Z.to_nat n) /\
    Z.of_nat (List.length (sleeps new)) = n /\
    (Qsum (sleeps new) == inject_Z n * d)%Q.
Proof.
  intros Hn Hd.
  eexists; exists (sim_events path r d (now w) (py_range n)).
  split; [now apply simulate_delta_commits_run|].
  assert (Hlen : List.length (py_range n) = Z.to_nat n)
    by (unfold py_range; now rewrite length_map, length_seq).
  cbn [trace]; split; [reflexivity|split; [apply schedule_sim_events|]].
  rewrite sleeps_sim_events, Hlen; split; [reflexivity|split].
  - rewrite repeat_length; lia.
  - rewrite Qsum_repeat; now rewrite Z2Nat.id by lia.
Qed.

(** ** Duration plotter: collecting the points *)

(** One iteration never raises; it appends the duration as soon as it is
    read, and the timestamp only if it can be read too. *)
Lemma collect_point_run (p : value) (l : plot_locals) :
  collect_point p l =
    (Ok tt,
     match trigger_seconds p with
     | Raise _ => l
     | Ok d =>
         match py_getitem p "timestamp" with
         | Raise _ => mkLocals (durations l ++ [d]) (timestamps l)
         | Ok t => mkLocals (durations l ++ [d]) (timestamps l ++ [t])
         end
     end).
Proof.
  unfold collect_point, try_except, bind, lift, durations_append,
    timestamps_append, ret.
  destruct (trigger_seconds p) as [d|e]; [|reflexivity].
  now destruct (py_getitem p "timestamp") as [t|e].
Qed.

(** Snapshots whose duration cannot be read are skipped, and the two
    lists stay aligned, as long as every snapshot with a readable
    duration also has a timestamp. *)
Lemma collect_points_aligned (h : list value) (l : plot_locals) :
  (forall p, In p h ->
     is_ok (trigger_seconds p) = true ->
     is_ok (py_getitem p "timestamp") = true) ->
  for_each h collect_point l =
    (Ok tt,
     mkLocals (durations l ++ map snd (valid_points h))
              (timestamps l ++ map fst (valid_points h))).
Proof.
  revert l; induction h as [|p h IH]; intros l Hts.
  - simpl; rewrite !app_nil_r; now destruct l.
  - cbn [for_each]; unfold bind; rewrite collect_point_run.
    rewrite IH by (intros p' Hin; apply Hts; now right).
    specialize (Hts p (or_introl eq_refl)).
    cbn [valid_points]; unfold point_of.
    destruct (trigger_seconds p) as [d|e]; [|reflexivity].
    destruct (py_getitem p "timestamp") as [t|e];
      [|specialize (Hts eq_refl); discriminate].
    cbn [durations timestamps map fst snd]; now rewrite <- !app_assoc.
Qed.

(** On such a history the chart is drawn from exactly the valid points,
    in the order of the history. *)
Lemma plot_task_durations_aligned (q : query) (h : list value) (w : world) :
  recentProgress q = VList h ->
  (forall p, In p h ->
     is_ok (trigger_seconds p) = true ->
     is_ok (py_getitem p "timestamp") = true) ->
  valid_points h <> [] ->
  plot_task_durations q w = (Ok tt, emits (chart_events (valid_points h)) w).
Proof.
  intros Hh Hts Hne.
  unfold plot_task_durations; rewrite Hh.
  destruct h as [|p h']; [contradiction|]; cbn [py_truthy negb py_iter].
  unfold bind at 1, lift at 1; unfold bind at 1, with_locals at 1.
  rewrite (collect_points_aligned _ _ Hts); cbn [durations timestamps app].
  destruct (valid_points (p :: h')) as [|pt pts]; [contradiction|].
  cbn [map]; unfold plt_plot_xy; cbn [List.length].
  rewrite !length_map, Nat.eqb_refl.
  unfold bind, plt; cbv beta iota.
  now rewrite !emit_one, !emits_emits.
Qed.

(** * Worked runs *)

Example parse_int_plain : parse_int "1500" = Some 1500.
Proof. reflexivity. Qed.

Example parse_int_padded : parse_int " -1_500 " = Some (-1500).
Proof. reflexivity. Qed.

Example parse_int_double_underscore : parse_int "1__5" = None.
Proof. reflexivity. Qed.

Example parse_int_words : parse_int "n/a" = None.
Proof. reflexivity. Qed.

Example trigger_ms_string : trigger_ms (snapshot (VStr "1500") VNone) = Ok 1500.
Proof. reflexivity. Qed.

Example trigger_ms_missing :
  trigger_ms (VDict [("batchId", VInt 7)]) = Raise (KeyError "durationMs").
Proof. reflexivity. Qed.

Example diagnose_no_progress :
  diagnose_performance (query_with VNone (VList [])) 60 session
  = (Ok tt, prints [not_started_msg] session).
Proof. reflexivity. Qed.

(** [T/1000 == I]: balanced, not slower. *)
Example diagnose_at_interval :
  diagnose_performance (query_with (snapshot (VInt 60000) VNone) VNone) 60
    session
  = (Ok tt, prints (report_header 60 60000 ++ balanced_advice) session).
Proof. reflexivity. Qed.

(** [T/1000 == 0.5*I]: balanced, not much faster. *)
Example diagnose_at_half_interval :
  diagnose_performance (query_with (snapshot (VInt 30000) VNone) VNone) 60
    session
  = (Ok tt, prints (report_header 60 30000 ++ balanced_advice) session).
Proof. reflexivity. Qed.

Example diagnose_just_over :
  diagnose_performance (query_with (snapshot (VInt 60001) VNone) VNone) 60
    session
  = (Ok tt, prints (report_header 60 60001 ++ slower_advice) session).
Proof. reflexivity. Qed.

Example diagnose_just_under_half :
  diagnose_performance (query_with (snapshot (VInt 29999) VNone) VNone) 60
    session
  = (Ok tt, prints (report_header 60 29999 ++ faster_advice) session).
Proof. reflexivity. Qed.

Example diagnose_malformed :
  diagnose_performance (query_with (snapshot (VStr "n/a") VNone) VNone) 60
    session
  = (Ok tt,
     prints [extraction_error_msg
               (ValueError "invalid literal for int() with base 10")]
            session).
Proof. reflexivity. Qed.

Example audit_2_on_8 :
  check_partitions_and_cores_static (mkDataFrame false 2) session
  = (Ok tt, emits (audit_events 2 8 UnderPartitioned) session).
Proof. reflexivity. Qed.

Example audit_40_on_8 :
  check_partitions_and_cores_static (mkDataFrame false 40) session
  = (Ok tt, emits (audit_events 40 8 OverPartitioned) session).
Proof. reflexivity. Qed.

Example audit_16_on_8 :
  check_partitions_and_cores_static (mkDataFrame false 16) session
  = (Ok tt, emits (audit_events 16 8 WellBalanced) session).
Proof. reflexivity. Qed.

Example audit_32_on_8 :
  check_partitions_and_cores_static (mkDataFrame false 32) session
  = (Ok tt, emits (audit_events 32 8 WellBalanced) session).
Proof. reflexivity. Qed.

(** Three batches of ten rows with no pause: ids 0-9, 10-19, 20-29. *)
Example simulate_3_by_10 :
  map (fun c => map row_id (snd c))
      (delta_writes
         (trace (snd (simulate_delta_commits "/tmp/delta/stream_source"
                        3 10 0 session))))
  = [ [0; 1; 2; 3; 4; 5; 6; 7; 8; 9];
      [10; 11; 12; 13; 14; 15; 16; 17; 18; 19];
      [20; 21; 22; 23; 24; 25; 26; 27; 28; 29] ].
Proof. reflexivity. Qed.

(** A negative pause is refused by [time.sleep] after the first commit. *)
Example simulate_negative_pause :
  exists w',
    simulate_delta_commits "/tmp/delta/stream_source" 3 10 (-1 # 1) session
    = (Raise (ValueError "sleep length must be non-negative"), w') /\
    List.length (delta_writes (trace w')) = 1%nat.
Proof. eexists; split; reflexivity. Qed.

Example plot_history_5 :
  plot_task_durations (query_with VNone (VList history_5)) session
  = (Ok tt,
     emits (chart_events
              [ (VStr "2025-03-01T10:00:00.000Z", inject_Z 1000 / 1000);
                (VStr "2025-03-01T10:00:20.000Z", inject_Z 3000 / 1000);
                (VStr "2025-03-01T10:00:40.000Z", inject_Z 5000 / 1000) ]%Q)
           session).
Proof. reflexivity. Qed.

(** C2. On [history_slip] only the second snapshot has both fields, yet
    the loop keeps the duration of the first: it ends with two durations
    against one timestamp, and the call to [plt.plot] on these misaligned
    lists raises out of [plot_task_durations]. *)
Theorem plot_task_durations_timestamp_slip :
  valid_points history_slip
    = [ (VStr "2025-03-01T10:00:10.000Z", inject_Z 2000 / 1000)%Q ] /\
  for_each history_slip collect_point (mkLocals [] [])
    = (Ok tt,
       mkLocals [inject_Z 1000 / 1000; inject_Z 2000 / 1000]%Q
                [VStr "2025-03-01T10:00:10.000Z"]) /\
  plot_task_durations (query_with VNone (VList history_slip)) session
    = (Raise (ValueError "x and y must have same first dimension"),
       emits [EPlt (plt_figure 10 4)] session).
Proof. repeat split; reflexivity. Qed.

(** * Instances of the conditional statements *)


Lemma show_query_progress_no_snapshot_fresh :
  lastProgress (query_with VNone (VList [])) = VNone /\
  show_query_progress (query_with VNone (VList [])) session
  = (Ok tt,
     prints [[Lit "Last Progress Snapshot:"]; [JsonDumps 2 VNone]] session).
Proof.
  split; [reflexivity|].
  apply (show_query_progress_no_snapshot (query_with VNone (VList []))).
  reflexivity.
Defined.

Lemma check_partitions_classifies_16_on_8 :
  isStreaming (mkDataFrame false 16) = false /\
  (0 <= 16 \/ 0 <= 8) /\
  check_partitions_and_cores_static (mkDataFrame false 16) session
  = (Ok tt, emits (audit_events 16 8 WellBalanced) session).
Proof.
  assert (H1 : isStreaming (mkDataFrame false 16) = false) by reflexivity.
  assert (H2 : 0 <= numPartitions (mkDataFrame false 16)
               \/ 0 <= defaultParallelism session) by (left; simpl; lia).
  split; [reflexivity|split; [left; lia|]].
  destruct (check_partitions_classifies (mkDataFrame false 16) session H1 H2)
    as [v [Hrun [_ [_ [_ Hbalanced]]]]].
  rewrite Hrun, Hbalanced; [reflexivity|simpl; lia].
Defined.

Lemma check_partitions_refuses_streaming_read :
  isStreaming (mkDataFrame true 0) = true /\
  check_partitions_and_cores_static (mkDataFrame true 0) session
  = (Ok tt, emits [EPrint streaming_warning] session).
Proof.
  split; [reflexivity|].
  apply (check_partitions_refuses_streaming (mkDataFrame true 0) session).
  reflexivity.
Defined.

Lemma plot_task_durations_no_history_fresh :
  (recentProgress (query_with VNone (VList [])) = VNone \/
   recentProgress (query_with VNone (VList [])) = VList []) /\
  plot_task_durations (query_with VNone (VList [])) session
  = (Ok tt, emits [EPrint no_history_msg] session).
Proof.
  split; [right; reflexivity|].
  apply (plot_task_durations_no_history (query_with VNone (VList []))).
  right; reflexivity.
Defined.

Lemma simulate_delta_commits_appends_3_by_10 :
  0 <= 3 /\ 0 <= 10 /\ (0 <= 0)%Q /\
  exists (w' : world) (batches : list (list row)),
    simulate_delta_commits "/tmp/delta/stream_source" 3 10 0 session
      = (Ok tt, w') /\
    delta_writes (trace w')
      = map (fun rows => ("append", "/tmp/delta/stream_source", rows)) batches /\
    Z.of_nat (List.length batches) = 3.
Proof.
  assert (H1 : 0 <= 3) by lia.
  assert (H2 : 0 <= 10) by lia.
  assert (H3 : (0 <= 0)%Q) by apply Qle_refl.
  split; [exact H1|split; [exact H2|split; [exact H3|]]].
  destruct (simulate_delta_commits_appends "/tmp/delta/stream_source"
              3 10 0 session H1 H2 H3)
    as [w' [batches [Hrun [Hwrites [Hcount _]]]]].
  exists w', batches; split; [exact Hrun|split; [exact Hwrites|exact Hcount]].
Defined.

Lemma simulate_delta_commits_sleeps_3_by_10s :
  0 <= 3 /\ (0 <= 10)%Q /\
  exists w' : world,
    simulate_delta_commits "/tmp/delta/stream_source" 3 1000 10 session
      = (Ok tt, w') /\
    sleeps (trace w') = [10; 10; 10]%Q.
Proof.
  assert (H1 : 0 <= 3) by lia.
  assert (H2 : (0 <= 10)%Q) by (unfold Qle; simpl; lia).
  split; [exact H1|split; [exact H2|]].
  destruct (simulate_delta_commits_sleeps "/tmp/delta/stream_source"
              3 1000 10 session H1 H2)
    as [w' [new [Hrun [Htrace [_ [Hsleeps _]]]]]].
  exists w'; split; [assumption|].
  rewrite Htrace; simpl; assumption.
Defined.

(** * Further properties *)

(** ** Stopping the queries *)

Lemma stop_loop (l : list query) (w : world) :
  for_each l (fun q =>
    print [Lit "Stopping query ID: "; FmtS (id q); Lit ", Name: ";
           FmtOpt (name q)] ;;
    query_stop q) w
  = (Ok tt,
     mkWorld (trace w ++ stop_events l) (now w)
             (registry_without l (active w)) (defaultParallelism w)).
Proof.
  revert w; induction l as [|q l IH]; intro w.
  - simpl; rewrite app_nil_r; now destruct w.
  - cbn [for_each]; unfold bind at 1.
    unfold bind at 1, print at 1, query_stop at 1; cbv beta iota.
    rewrite IH; cbn [trace now active defaultParallelism emit].
    unfold stop_events, registry_without, stopping_line.
    cbn [flat_map fold_left]; now rewrite <- !app_assoc.
Qed.

Lemma registry_without_in (l a : list query) (x : query) :
  In x (registry_without l a) ->
  In x a /\ ~ In (id x) (map id l).
Proof.
  revert a; induction l as [|q l IH]; intros a Hx.
  - split; [exact Hx | intros []].
  - apply IH in Hx as [Hx Hl].
    apply filter_In in Hx as [Hx Hq].
    split; [exact Hx|].
    intros [Heq|Hin]; [|now apply Hl].
    rewrite <- Heq, String.eqb_refl in Hq; discriminate.
Qed.

Lemma registry_without_self (l : list query) : registry_without l l = [].
Proof.
  destruct (registry_without l l) as [|x rest] eqn:E; [reflexivity|].
  assert (Hx : In x (registry_without l l)) by (rewrite E; now left).
  apply registry_without_in in Hx as [Hx Hl].
  exfalso; apply Hl; now apply in_map.
Qed.

Lemma stop_all_queries_run (w : world) :
  stop_all_queries w
  = (Ok tt,
     mkWorld (trace w ++ stop_events (active w)) (now w) []
             (defaultParallelism w)).
Proof.
  unfold stop_all_queries, bind at 1, spark_streams_active.
  rewrite (stop_loop (active w) w); now rewrite registry_without_self.
Qed.

Lemma stops_stop_events (l : list query) :
  stops (stop_events l) = map id l.
Proof.
  induction l as [|q l IH]; [reflexivity|]; simpl; now rewrite IH.
Qed.

(** X1. [stop_all_queries] returns normally after announcing and stopping
    every active query, one stop per query, in the order of the
    registry; no query is left active. *)
Theorem stop_all_queries_stops_each (w : world) :
  exists w' : world,
    stop_all_queries w = (Ok tt, w') /\
    trace w' = (trace w ++ stop_events (active w))%list /\
    stops (stop_events (active w)) = map id (active w) /\
    printed (stop_events (active w)) = map stopping_line (active w) /\
    active w' = [].
Proof.
  eexists; split; [apply stop_all_queries_run|]; cbn [trace active].
  split; [reflexivity|split; [apply stops_stop_events|split]];
    [|reflexivity].
  induction (active w) as [|q l IH]; [reflexivity|]; simpl; now rewrite IH.
Qed.

(** X2. Listing the queries after [stop_all_queries] finds none: whatever
    was running, the listing prints the no-active-queries message. *)
Theorem list_after_stop_all (w : world) :
  (stop_all_queries ;; list_active_queries) w
  = (Ok tt,
     mkWorld (trace w ++ stop_events (active w) ++ [EPrint no_active_msg])
             (now w) [] (defaultParallelism w)).
Proof.
  unfold bind at 1; rewrite stop_all_queries_run.
  unfold list_active_queries, bind, spark_streams_active, print, emit.
  cbn [trace now active defaultParallelism]; now rewrite <- app_assoc.
Qed.

(** X3. [stop_all_queries] is idempotent: a second call right after the
    first stops nothing and prints nothing. *)
Theorem stop_all_queries_twice (w : world) :
  (stop_all_queries ;; stop_all_queries) w = stop_all_queries w.
Proof.
  unfold bind at 1; rewrite stop_all_queries_run.
  rewrite stop_all_queries_run; cbn [trace now active defaultParallelism].
  unfold stop_events; cbn [flat_map]; now rewrite app_nil_r.
Qed.

(** ** More on the commit generator *)

Lemma py_range_nonpos (n : Z) : n <= 0 -> py_range n = [].
Proof.
  intro Hn; unfold py_range.
  now replace (Z.to_nat n) with 0%nat by lia.
Qed.

Lemma py_range_pos (n : Z) :
  1 <= n -> py_range n = 0 :: map Z.of_nat (seq 1 (Z.to_nat n - 1)).
Proof.
  intro Hn; unfold py_range.
  replace (Z.to_nat n) with (S (Z.to_nat n - 1)) at 1 by lia.
  reflexivity.
Qed.

Lemma written_ids_app (es es' : list event) :
  written_ids (es ++ es') = (written_ids es ++ written_ids es')%list.
Proof. unfold written_ids; now rewrite delta_writes_app, flat_map_app. Qed.

Lemma batch_rows_ids (r i : Z) (t : Q) :
  map row_id (batch_rows r i t) = spark_range (i * r) ((i + 1) * r).
Proof.
  unfold batch_rows, withColumn_ts; rewrite map_map; cbn [row_id].
  apply map_id.
Qed.

Lemma written_ids_sim_events (path : string) (r : Z) (d t : Q) (l : list Z) :
  written_ids (sim_events path r d t l)
  = flat_map (fun i => spark_range (i * r) ((i + 1) * r)) l.
Proof.
  unfold written_ids.
  revert t; induction l as [|i l IH]; intro t; [reflexivity|].
  cbn [sim_events delta_writes flat_map snd].
  now rewrite batch_rows_ids, IH.
Qed.

Lemma map_add_seq (a b len : nat) :
  map (fun k => Z.of_nat a + Z.of_nat k) (seq b len)
  = map Z.of_nat (seq (a + b) len).
Proof.
  revert b; induction len as [|len IH]; intro b; [reflexivity|].
  cbn [seq map]; rewrite IH.
  f_equal; [lia|]. now replace (a + S b)%nat with (S (a + b)) by lia.
Qed.

Lemma spark_range_batch (r : Z) (i : nat) :
  0 <= r ->
  spark_range (Z.of_nat i * r) ((Z.of_nat i + 1) * r)
  = map Z.of_nat (seq (i * Z.to_nat r) (Z.to_nat r)).
Proof.
  intro Hr; unfold spark_range.
  replace ((Z.of_nat i + 1) * r - Z.of_nat i * r) with r by lia.
  replace (Z.of_nat i * r) with (Z.of_nat (i * Z.to_nat r)) by lia.
  rewrite map_add_seq; now rewrite Nat.add_0_r.
Qed.

Lemma flat_batches_contiguous (r : Z) (k a : nat) :
  0 <= r ->
  flat_map (fun i => spark_range (i * r) ((i + 1) * r))
           (map Z.of_nat (seq a k))
  = map Z.of_nat (seq (a * Z.to_nat r) (k * Z.to_nat r)).
Proof.
  intro Hr; revert a; induction k as [|k IH]; intro a; [reflexivity|].
  cbn [seq map flat_map]; rewrite IH, spark_range_batch by assumption.
  rewrite <- map_app; f_equal.
  replace (S k * Z.to_nat r)%nat with (Z.to_nat r + k * Z.to_nat r)%nat
    by lia.
  rewrite seq_app; do 2 f_equal; lia.
Qed.

Lemma written_ids_run (path : string) (n r : Z) (d t : Q) :
  0 <= n -> 0 <= r ->
  written_ids (sim_events path r d t (py_range n)) = py_range (n * r).
Proof.
  intros Hn Hr; rewrite written_ids_sim_events; unfold py_range.
  rewrite flat_batches_contiguous by assumption.
  now rewrite Nat.mul_0_l, Z2Nat.inj_mul by assumption.
Qed.

Lemma printed_sim_events (path : string) (r : Z) (d t : Q) (l : list Z) :
  printed (sim_events path r d t l) = map (committed_line r) l.
Proof.
  revert t; induction l as [|i l IH]; intro t; simpl; [|rewrite IH];
    reflexivity.
Qed.

Lemma sim_batches_empty (r : Z) (d t : Q) (l : list Z) :
  r <= 0 -> sim_batches r d t l = repeat [] (List.length l).
Proof.
  intro Hr; revert t; induction l as [|i l IH]; intro t; [reflexivity|].
  cbn [sim_batches List.length repeat]; rewrite IH; f_equal.
  unfold batch_rows, withColumn_ts, spark_range.
  now replace (Z.to_nat ((i + 1) * r - i * r)) with 0%nat by lia.
Qed.

(** X4. With [num_batches <= 0] the generator does nothing at all: no
    commit, no line, no sleep, whatever the other arguments. *)
Theorem simulate_delta_commits_no_batches
    (path : string) (n r : Z) (d : Q) (w : world) :
  n <= 0 -> simulate_delta_commits path n r d w = (Ok tt, w).
Proof.
  intro Hn; unfold simulate_delta_commits.
  now rewrite py_range_nonpos.
Qed.

(** X5. With a negative [interval_sec] and at least one batch, the
    generator fails in [time.sleep] at the end of the first iteration:
    the first batch is already committed and announced, nothing else is
    written, and the [ValueError] reaches the caller. *)
Theorem simulate_delta_commits_negative_interval
    (path : string) (n r : Z) (d : Q) (w : world) :
  1 <= n -> (d < 0)%Q ->
  simulate_delta_commits path n r d w
  = (Raise (ValueError "sleep length must be non-negative"),
     emits [EDeltaWrite "append" path (batch_rows r 0 (now w));
            EPrint (committed_line r 0)] w).
Proof.
  intros Hn Hd; apply Qltb_lt in Hd.
  unfold simulate_delta_commits; rewrite py_range_pos by assumption.
  cbn [for_each]; unfold bind at 1.
  unfold bind, delta_save, print, time_sleep; cbv beta iota zeta.
  cbn [trace now active defaultParallelism emit]; rewrite Hd.
  now rewrite !emit_one, emits_emits.
Qed.

(** X6. Over a full run the batches tile the ids without gap or overlap:
    read in commit order, the ids written are exactly
    [0, 1, ..., n*r - 1]. *)
Theorem simulate_delta_commits_ids_contiguous
    (path : string) (n r : Z) (d : Q) (w : world) :
  0 <= n -> 0 <= r -> (0 <= d)%Q ->
  exists (w' : world) (new : list event),
    simulate_delta_commits path n r d w = (Ok tt, w') /\
    trace w' = (trace w ++ new)%list /\
    written_ids new = py_range (n * r).
Proof.
  intros Hn Hr Hd.
  eexists; exists (sim_events path r d (now w) (py_range n)).
  split; [now apply simulate_delta_commits_run|].
  split; [reflexivity|now apply written_ids_run].
Qed.

(** X7. With [rows_per_batch <= 0] the generator still issues one append
    per iteration, each of them empty. *)
Theorem simulate_delta_commits_empty_batches
    (path : string) (n r : Z) (d : Q) (w : world) :
  r <= 0 -> (0 <= d)%Q ->
  exists (w' : world) (new : list event),
    simulate_delta_commits path n r d w = (Ok tt, w') /\
    trace w' = (trace w ++ new)%list /\
    delta_writes new = repeat ("append", path, []) (Z.to_nat n).
Proof.
  intros Hr Hd.
  eexists; exists (sim_events path r d (now w) (py_range n)).
  split; [now apply simulate_delta_commits_run|].
  split; [reflexivity|].
  rewrite delta_writes_sim_events, sim_batches_empty by assumption.
  unfold py_range; rewrite length_map, length_seq.
  induction (Z.to_nat n) as [|k IH]; [reflexivity|]; simpl; now rewrite IH.
Qed.

(** X8. The generator announces every commit: a full run prints one line
    per iteration, the [i]-th reading "Committed r rows to Delta at batch
    i", and nothing else. *)
Theorem simulate_delta_commits_announces
    (path : string) (n r : Z) (d : Q) (w : world) :
  (0 <= d)%Q ->
  exists (w' : world) (new : list event),
    simulate_delta_commits path n r d w = (Ok tt, w') /\
    trace w' = (trace w ++ new)%list /\
    printed new = map (committed_line r) (py_range n).
Proof.
  intro Hd.
  eexists; exists (sim_events path r d (now w) (py_range n)).
  split; [now apply simulate_delta_commits_run|].
  split; [reflexivity|apply printed_sim_events].
Qed.

(** X9. The ids restart from 0 at every call: running the generator twice
    on the same location appends the ids [0 .. n*r - 1] a second time. *)
Theorem simulate_delta_commits_rerun_duplicates
    (path : string) (n r : Z) (d : Q) (w : world) :
  0 <= n -> 0 <= r -> (0 <= d)%Q ->
  exists (w' : world) (new : list event),
    (simulate_delta_commits path n r d ;;
     simulate_delta_commits path n r d) w = (Ok tt, w') /\
    trace w' = (trace w ++ new)%list /\
    written_ids new = (py_range (n * r) ++ py_range (n * r))%list.
Proof.
  intros Hn Hr Hd.
  unfold bind; rewrite simulate_delta_commits_run by assumption.
  rewrite simulate_delta_commits_run by assumption.
  cbn [trace now active defaultParallelism].
  eexists; eexists; split; [reflexivity|]; cbn [trace].
  split; [now rewrite <- app_assoc|].
  now rewrite written_ids_app, !written_ids_run.
Qed.

(** ** More on the diagnoser *)









(** ** More on the plotter *)

Lemma collect_points_run (h : list value) (l : plot_locals) :
  for_each h collect_point l =
    (Ok tt,
     mkLocals (durations l ++ readable_durations h)
              (timestamps l ++ map fst (valid_points h))).
Proof.
  revert l; induction h as [|p h IH]; intro l.
  - simpl; rewrite !app_nil_r; now destruct l.
  - cbn [for_each]; unfold bind; rewrite collect_point_run, IH.
    cbn [valid_points readable_durations]; unfold point_of.
    destruct (trigger_seconds p) as [d|e]; [|reflexivity].
    destruct (py_getitem p "timestamp") as [t|e];
      cbn [durations timestamps map fst]; now rewrite <- !app_assoc.
Qed.

Lemma valid_points_le_readable (h : list value) :
  (List.length (valid_points h) <= List.length (readable_durations h))%nat.
Proof.
  induction h as [|p h IH]; [reflexivity|].
  cbn [valid_points readable_durations]; unfold point_of.
  destruct (trigger_seconds p); [|exact IH].
  destruct (py_getitem p "timestamp"); simpl; lia.
Qed.

Lemma valid_points_lt_readable (h : list value) :
  existsb lacks_timestamp h = true ->
  (List.length (valid_points h) < List.length (readable_durations h))%nat.
Proof.
  induction h as [|p h IH]; [discriminate|].
  pose proof (valid_points_le_readable h) as Hle.
  cbn [existsb valid_points readable_durations].
  unfold lacks_timestamp at 1, point_of.
  destruct (trigger_seconds p); [|exact IH].
  destruct (py_getitem p "timestamp"); cbn [is_ok negb andb orb]; intro H;
    [apply IH in H|]; simpl; lia.
Qed.

Lemma valid_points_all_readable (h : list value) :
  existsb lacks_timestamp h = false ->
  map snd (valid_points h) = readable_durations h.
Proof.
  induction h as [|p h IH]; [reflexivity|].
  cbn [existsb valid_points readable_durations].
  unfold lacks_timestamp at 1, point_of.
  destruct (trigger_seconds p); [|exact IH].
  destruct (py_getitem p "timestamp"); cbn [is_ok negb andb orb]; intro H;
    [|discriminate].
  simpl; now rewrite IH.
Qed.

Lemma readable_durations_none (h : list value) :
  (forall p, In p h -> is_ok (trigger_seconds p) = false) ->
  readable_durations h = [].
Proof.
  induction h as [|p h IH]; intro H; [reflexivity|].
  cbn [readable_durations].
  pose proof (H p (or_introl eq_refl)) as Hp.
  destruct (trigger_seconds p); [discriminate|].
  apply IH; intros p' Hin; apply H; now right.
Qed.

Lemma plot_task_durations_collects (q : query) (h : list value) (w : world) :
  recentProgress q = VList h ->
  h <> [] ->
  plot_task_durations q w =
    match readable_durations h with
    | [] => print no_valid_durations_msg w
    | _ :: _ =>
        (plt (plt_figure 10 4) ;;
         plt_plot_xy (map fst (valid_points h)) (readable_durations h)
           "o" "dodgerblue" ;;
         plt (plt_xticks 45) ;;
         plt (plt_ylabel "Trigger Duration (sec)") ;;
         plt (plt_title "Micro-Batch Execution Time over Time") ;;
         plt (plt_grid true) ;;
         plt plt_tight_layout ;;
         plt plt_show) w
    end.
Proof.
  intros Hh Hne.
  unfold plot_task_durations; rewrite Hh.
  destruct h as [|p h']; [contradiction|]; cbn [py_truthy negb py_iter].
  unfold bind at 1, lift at 1; unfold bind at 1, with_locals at 1.
  rewrite collect_points_run; cbn [durations timestamps app].
  now destruct (readable_durations (p :: h')).
Qed.

(** X12. A history in which no snapshot has a readable duration is not
    an error: the plotter prints the no-valid-durations message and
    draws nothing. *)
Theorem plot_task_durations_nothing_readable
    (q : query) (h : list value) (w : world) :
  recentProgress q = VList h ->
  h <> [] ->
  (forall p, In p h -> is_ok (trigger_seconds p) = false) ->
  plot_task_durations q w = (Ok tt, emits [EPrint no_valid_durations_msg] w).
Proof.
  intros Hh Hne Hnone.
  rewrite (plot_task_durations_collects q h w Hh Hne).
  now rewrite readable_durations_none.
Qed.

(** X13. What the loop of the plotter collects, for any history: the
    duration of every snapshot whose duration can be read, and the
    timestamp of every snapshot where both can be read. So there are never
    more timestamps than durations, and as many exactly when no snapshot
    has a readable duration without a timestamp. *)
Theorem plot_loop_collects (h : list value) :
  for_each h collect_point (mkLocals [] [])
    = (Ok tt, mkLocals (readable_durations h) (map fst (valid_points h))) /\
  (List.length (map fst (valid_points h))
     <= List.length (readable_durations h))%nat /\
  (List.length (map fst (valid_points h)) = List.length (readable_durations h)
   <-> existsb lacks_timestamp h = false).
Proof.
  split; [apply collect_points_run|].
  rewrite length_map; split; [apply valid_points_le_readable|].
  split; intro H.
  - destruct (existsb lacks_timestamp h) eqn:E; [|reflexivity].
    apply valid_points_lt_readable in E; lia.
  - now rewrite <- (valid_points_all_readable h H), length_map.
Qed.

(** X14. Whenever some snapshot of the history has a readable duration
    and no readable timestamp, [plot_task_durations] opens the figure and
    then fails: the call to [plt.plot] gets fewer timestamps than
    durations and its [ValueError] reaches the caller. *)
Theorem plot_task_durations_fails_without_timestamp
    (q : query) (h : list value) (w : world) :
  recentProgress q = VList h ->
  (exists p, In p h /\ lacks_timestamp p = true) ->
  plot_task_durations q w
  = (Raise (ValueError "x and y must have same first dimension"),
     emits [EPlt (plt_figure 10 4)] w).
Proof.
  intros Hh Hp; apply existsb_exists in Hp.
  assert (Hne : h <> []) by (intros ->; discriminate).
  rewrite (plot_task_durations_collects q h w Hh Hne).
  apply valid_points_lt_readable in Hp.
  destruct (readable_durations h) as [|d ds] eqn:E; [simpl in Hp; lia|].
  unfold bind at 1, plt at 1; cbv beta iota.
  unfold bind at 1, plt_plot_xy; rewrite length_map.
  apply Nat.lt_neq, Nat.eqb_neq in Hp; now rewrite Hp.
Qed.

(** X15. When every snapshot carries a timestamp, as the engine's do, the
    plotter skips exactly the snapshots whose duration cannot be read and
    charts all the others, in the order of the history. *)
Theorem plot_task_durations_charts_readable
    (q : query) (h : list value) (w : world) :
  recentProgress q = VList h ->
  (forall p, In p h -> is_ok (py_getitem p "timestamp") = true) ->
  readable_durations h <> [] ->
  plot_task_durations q w = (Ok tt, emits (chart_events (valid_points h)) w) /\
  map snd (valid_points h) = readable_durations h.
Proof.
  intros Hh Hts Hne.
  assert (Hall : map snd (valid_points h) = readable_durations h).
  { apply valid_points_all_readable.
    destruct (existsb lacks_timestamp h) eqn:E; [|reflexivity].
    apply existsb_exists in E as [p [Hin Hp]].
    unfold lacks_timestamp in Hp; rewrite (Hts p Hin) in Hp.
    now rewrite andb_false_r in Hp. }
  split; [|exact Hall].
  apply plot_task_durations_aligned; [exact Hh|now intros; apply Hts|].
  intro Hnil; apply Hne; now rewrite <- Hall, Hnil.
Qed.

(** ** The query listener *)

(** X16. For a snapshot with the engine's field types (integer batch id,
    row count and trigger duration, string timestamp) the listener
    returns normally and prints one line carrying the batch id, the
    timestamp, the row count and the duration, in that order. *)
Theorem onQueryProgress_prints_line
    (ev : progress_event) (b n m : Z) (t : string) (dm : value) (w : world) :
  py_getitem (progress ev) "batchId" = Ok (VInt b) ->
  py_getitem (progress ev) "timestamp" = Ok (VStr t) ->
  py_getitem (progress ev) "numInputRows" = Ok (VInt n) ->
  py_getitem (progress ev) "durationMs" = Ok dm ->
  py_getitem dm "triggerExecution" = Ok (VInt m) ->
  onQueryProgress ev w
  = (Ok tt,
     emits [EPrint [Lit "[Batch "; FmtZ b; Lit "] "; FmtS t;
                    Lit " | Rows: "; FmtZ n; Lit " | Duration: "; FmtZ m;
                    Lit "ms"]] w).
Proof.
  intros Hb Ht Hn Hd Hm.
  unfold onQueryProgress, bind, lift.
  now rewrite Hb, Ht, Hn, Hd, Hm.
Qed.

(** X17. The listener is all or nothing, and unguarded: when its five
    lookups succeed it prints exactly one line; when any of them fails
    the exception leaves the callback and nothing has been printed. *)
Theorem onQueryProgress_unguarded (ev : progress_event) (w : world) :
  (logger_fields_present (progress ev) = true ->
   exists l : line, onQueryProgress ev w = (Ok tt, emits [EPrint l] w)) /\
  (logger_fields_present (progress ev) = false ->
   exists e : exn, onQueryProgress ev w = (Raise e, w)).
Proof.
  unfold logger_fields_present, onQueryProgress, bind, lift.
  destruct (py_getitem (progress ev) "batchId") as [b|e];
    [|split; [discriminate|intros _; now exists e]].
  destruct (py_getitem (progress ev) "timestamp") as [t|e];
    [|split; [discriminate|intros _; now exists e]].
  destruct (py_getitem (progress ev) "numInputRows") as [n|e];
    [|split; [discriminate|intros _; now exists e]].
  destruct (py_getitem (progress ev) "durationMs") as [dm|e];
    [|split; [discriminate|intros _; now exists e]].
  destruct (py_getitem dm "triggerExecution") as [m|e];
    [|split; [discriminate|intros _; now exists e]].
  split; [intros _; eexists; reflexivity|discriminate].
Qed.

(** ** Guarded and unguarded readers *)

(** X18. A snapshot without the [durationMs] field is handled softly by
    the diagnoser, which prints the soft-error line and returns, but makes
    the listener raise without printing. *)
Theorem missing_duration_soft_and_hard
    (q : query) (I : Q) (e : exn) (w : world) :
  py_truthy (lastProgress q) = true ->
  py_getitem (lastProgress q) "durationMs" = Raise e ->
  diagnose_performance q I w = (Ok tt, prints [extraction_error_msg e] w) /\
  exists e' : exn,
    onQueryProgress (mkProgressEvent (lastProgress q)) w = (Raise e', w).
Proof.
  intros Htruthy Hmissing; split.
  - rewrite (diagnose_performance_soft_error q I e w Htruthy); [reflexivity|].
    unfold trigger_ms; now rewrite Hmissing.
  - unfold onQueryProgress, bind, lift; cbn [progress].
    destruct (py_getitem (lastProgress q) "batchId") as [b|e1];
      [|now exists e1].
    destruct (py_getitem (lastProgress q) "timestamp") as [t|e2];
      [|now exists e2].
    destruct (py_getitem (lastProgress q) "numInputRows") as [n|e3];
      [|now exists e3].
    rewrite Hmissing; now exists e.
Qed.

(** * Instances of the further statements *)

Lemma simulate_delta_commits_no_batches_zero :
  0 <= 0 /\
  simulate_delta_commits "/tmp/delta/stream_source" 0 1000 10 session
  = (Ok tt, session).
Proof.
  split; [lia|].
  apply (simulate_delta_commits_no_batches "/tmp/delta/stream_source"
           0 1000 10 session); lia.
Defined.

Lemma simulate_delta_commits_negative_interval_3 :
  1 <= 3 /\ (-1 # 1 < 0)%Q /\
  simulate_delta_commits "/tmp/delta/stream_source" 3 10 (-1 # 1) session
  = (Raise (ValueError "sleep length must be non-negative"),
     emits [EDeltaWrite "append" "/tmp/delta/stream_source"
              (batch_rows 10 0 (now session));
            EPrint (committed_line 10 0)] session).
Proof.
  split; [lia|split; [reflexivity|]].
  apply (simulate_delta_commits_negative_interval "/tmp/delta/stream_source"
           3 10 (-1 # 1) session); [lia|reflexivity].
Defined.

Lemma simulate_delta_commits_ids_contiguous_3_by_10 :
  0 <= 3 /\ 0 <= 10 /\ (0 <= 0)%Q /\
  exists (w' : world) (new : list event),
    simulate_delta_commits "/tmp/delta/stream_source" 3 10 0 session
      = (Ok tt, w') /\
    trace w' = (trace session ++ new)%list /\
    written_ids new = py_range (3 * 10).
Proof.
  split; [lia|split; [lia|split; [apply Qle_refl|]]].
  apply (simulate_delta_commits_ids_contiguous "/tmp/delta/stream_source"
           3 10 0 session); [lia|lia|apply Qle_refl].
Defined.

Lemma simulate_delta_commits_empty_batches_3 :
  0 <= 0 /\ (0 <= 0)%Q /\
  exists (w' : world) (new : list event),
    simulate_delta_commits "/tmp/delta/stream_source" 3 0 0 session
      = (Ok tt, w') /\
    trace w' = (trace session ++ new)%list /\
    delta_writes new
      = repeat ("append", "/tmp/delta/stream_source", []) (Z.to_nat 3).
Proof.
  split; [lia|split; [apply Qle_refl|]].
  apply (simulate_delta_commits_empty_batches "/tmp/delta/stream_source"
           3 0 0 session); [lia|apply Qle_refl].
Defined.

Lemma simulate_delta_commits_announces_3 :
  (0 <= 0)%Q /\
  exists (w' : world) (new : list event),
    simulate_delta_commits "/tmp/delta/stream_source" 3 10 0 session
      = (Ok tt, w') /\
    trace w' = (trace session ++ new)%list /\
    printed new = map (committed_line 10) (py_range 3).
Proof.
  split; [apply Qle_refl|].
  apply (simulate_delta_commits_announces "/tmp/delta/stream_source"
           3 10 0 session); apply Qle_refl.
Defined.

Lemma simulate_delta_commits_rerun_duplicates_2_by_5 :
  0 <= 2 /\ 0 <= 5 /\ (0 <= 0)%Q /\
  exists (w' : world) (new : list event),
    (simulate_delta_commits "/tmp/delta/stream_source" 2 5 0 ;;
     simulate_delta_commits "/tmp/delta/stream_source" 2 5 0) session
      = (Ok tt, w') /\
    trace w' = (trace session ++ new)%list /\
    written_ids new = (py_range (2 * 5) ++ py_range (2 * 5))%list.
Proof.
  split; [lia|split; [lia|split; [apply Qle_refl|]]].
  apply (simulate_delta_commits_rerun_duplicates "/tmp/delta/stream_source"
           2 5 0 session); [lia|lia|apply Qle_refl].
Defined.



Lemma plot_task_durations_nothing_readable_one :
  plot_task_durations
    (query_with VNone (VList [snapshot (VStr "n/a") (VStr "10:00:00")]))
    session
  = (Ok tt, emits [EPrint no_valid_durations_msg] session).
Proof.
  apply (plot_task_durations_nothing_readable
           (query_with VNone (VList [snapshot (VStr "n/a") (VStr "10:00:00")]))
           [snapshot (VStr "n/a") (VStr "10:00:00")] session).
  - reflexivity.
  - discriminate.
  - intros p [<-|[]]; reflexivity.
Defined.

Lemma plot_task_durations_fails_on_history_slip :
  (exists p, In p history_slip /\ lacks_timestamp p = true) /\
  plot_task_durations (query_with VNone (VList history_slip)) session
  = (Raise (ValueError "x and y must have same first dimension"),
     emits [EPlt (plt_figure 10 4)] session).
Proof.
  assert (H : exists p, In p history_slip /\ lacks_timestamp p = true)
    by (exists (snapshot_without_timestamp (VInt 1000)); split;
        [now left|reflexivity]).
  split; [exact H|].
  apply (plot_task_durations_fails_without_timestamp
           (query_with VNone (VList history_slip)) history_slip session);
    [reflexivity|exact H].
Defined.

Lemma plot_task_durations_charts_history_5 :
  readable_durations history_5 <> [] /\
  plot_task_durations (query_with VNone (VList history_5)) session
  = (Ok tt, emits (chart_events (valid_points history_5)) session) /\
  map snd (valid_points history_5) = readable_durations history_5.
Proof.
  assert (H : readable_durations history_5 <> []) by discriminate.
  split; [exact H|].
  apply (plot_task_durations_charts_readable
           (query_with VNone (VList history_5)) history_5 session);
    [reflexivity| |exact H].
  intros p Hin; repeat (destruct Hin as [<-|Hin]; [reflexivity|]).
  destruct Hin.
Defined.

Lemma onQueryProgress_prints_line_batch_7 :
  onQueryProgress
    (mkProgressEvent (snapshot (VInt 1500) (VStr "2025-03-01T10:00:00.000Z")))
    session
  = (Ok tt,
     emits [EPrint [Lit "[Batch "; FmtZ 7; Lit "] ";
                    FmtS "2025-03-01T10:00:00.000Z";
                    Lit " | Rows: "; FmtZ 2000; Lit " | Duration: ";
                    FmtZ 1500; Lit "ms"]] session).
Proof.
  apply (onQueryProgress_prints_line
           (mkProgressEvent
              (snapshot (VInt 1500) (VStr "2025-03-01T10:00:00.000Z")))
           7 2000 1500 "2025-03-01T10:00:00.000Z"
           (VDict [("addBatch", VInt 310); ("triggerExecution", VInt 1500)])
           session); reflexivity.
Defined.

Lemma missing_duration_soft_and_hard_batch_only :
  py_truthy (VDict [("batchId", VInt 7)]) = true /\
  py_getitem (VDict [("batchId", VInt 7)]) "durationMs"
    = Raise (KeyError "durationMs") /\
  diagnose_performance (query_with (VDict [("batchId", VInt 7)]) VNone) 60
    session
  = (Ok tt, prints [extraction_error_msg (KeyError "durationMs")] session) /\
  exists e' : exn,
    onQueryProgress (mkProgressEvent (VDict [("batchId", VInt 7)])) session
    = (Raise e', session).
Proof.
  split; [reflexivity|split; [reflexivity|]].
  apply (missing_duration_soft_and_hard
           (query_with (VDict [("batchId", VInt 7)]) VNone)
           60 (KeyError "durationMs") session); reflexivity.
Defined.
